(** * Shodan API client: per-endpoint methods (methods.go, routes/routes.go)

    A shallow embedding of the per-endpoint methods of the Go client.  Every
    method is a short sequence of statements over its two named results
    [result] and [err]; the statements validate the arguments, build the
    query / form / JSON payload and hand one call to the request dispatcher
    ([c.get], [c.request], [c.requestExploits]).  The dispatcher itself, the
    [search] parameter encoders and the [models] types live outside the two
    source files and are taken as parameters. *)

From Stdlib Require Import ZArith NArith String Ascii List Lia.
From Stdlib Require Import Decimal DecimalString DecimalN.
From stdpp Require Import gmap strings list.

Local Open Scope string_scope.
Local Open Scope Z_scope.

(** ** Go values *)

(** A Go slice is either [nil] or backed by a (possibly empty) array. *)
Inductive slice (A : Type) : Type :=
| nil_slice
| mk_slice (elems : list A).
Arguments nil_slice {A}.
Arguments mk_slice {A} elems.

Definition elements {A} (s : slice A) : list A :=
  match s with
  | nil_slice => []
  | mk_slice l => l
  end.

Definition is_nil {A} (s : slice A) : bool :=
  match s with
  | nil_slice => true
  | mk_slice _ => false
  end.

(** [len(s)] on a slice; a nil slice has length 0. *)
Definition len {A} (s : slice A) : Z := Z.of_nat (length (elements s)).

(** [len(s)] on a string: the number of bytes. *)
Definition len_string (s : string) : Z := Z.of_nat (String.length s).

(** [strings.Join(elems, sep)]. *)
Definition strings_Join (elems : slice string) (sep : string) : string :=
  match elements elems with
  | [] => ""
  | [e] => e
  | e :: rest => fold_left (fun b s => b ++ sep ++ s) rest e
  end.

(** [fmt.Sprint] on an unsigned integer ([uint], [uint16]): base 10, no sign,
    no padding. *)
Definition fmt_Sprint (n : N) : string := NilZero.string_of_uint (N.to_uint n).

(** Reading a base-10 numeral back, used to say what "decimal
    representation" means. *)
Definition parse_decimal (s : string) : option N :=
  match NilZero.uint_of_string s with
  | Some d => Some (N.of_uint d)
  | None => None
  end.

(** [fmt.Sprintf(format, args...)] for formats whose only verb is [%s] and
    string operands, which is all the route table contains.  A verb without
    operand prints [%!s(MISSING)], operands left over are reported in a
    trailing [%!(EXTRA ...)]. *)
Definition extra_operands (args : list string) : string :=
  match args with
  | [] => ""
  | a :: rest =>
      "%!(EXTRA " ++
      fold_left (fun b s => b ++ ", string=" ++ s) rest ("string=" ++ a) ++ ")"
  end.

Fixpoint fmt_Sprintf (format : string) (args : list string) : string :=
  match format with
  | EmptyString => extra_operands args
  | String "%" (String "s" rest) =>
      match args with
      | a :: args' => a ++ fmt_Sprintf rest args'
      | [] => "%!s(MISSING)" ++ fmt_Sprintf rest []
      end
  | String c rest => String c (fmt_Sprintf rest args)
  end.

(** [url.Values] and [http.Header] are both [map[string][]string]; [None] is
    the nil map. *)
Abbreviation url_Values := (option (gmap string (list string))).
Abbreviation http_Header := (gmap string (list string)).

(** [make(url.Values)], [make(http.Header)]. *)
Definition make_map : gmap string (list string) := ∅.

(** [v.Set(key, value)]: the key is bound to the one-element list.  The
    header keys used below are already in canonical MIME form. *)
Definition map_Set (v : gmap string (list string)) (key value : string)
  : gmap string (list string) :=
  <[key := [value]]> v.

(** [len(values)] on a map; the nil map has length 0. *)
Definition len_map (v : url_Values) : Z :=
  match v with
  | None => 0
  | Some m => Z.of_nat (size m)
  end.

(** An [io.Reader] over an in-memory payload. *)
Inductive Reader : Type :=
| strings_NewReader (s : string)
| bytes_NewReader (b : string).

(** ** Errors *)

(** The package-level error values of methods.go, and errors built in place
    with [errors.New]. *)
Inductive error : Type :=
| errEmptyParams
| errEmptyAlertID
| errEmptyTriggerName
| errEmptyService
| errEmptyUsername
| errBigRequest
| errors_New (text : string).

Definition Error (e : error) : string :=
  match e with
  | errEmptyParams => "empty parameters"
  | errEmptyAlertID => "empty alert id"
  | errEmptyTriggerName => "empty trigger name"
  | errEmptyService => "empty service"
  | errEmptyUsername => "empty username"
  | errBigRequest => "request is too big"
  | errors_New text => text
  end.

Definition hostnamesLenLimit : Z := 3575.
Definition ipsLenLimit : Z := 3369.

(** ** Route table (routes/routes.go) *)

Module routes.
Definition ApiRoot := "https://api.shodan.io".
Definition ApiExploits := "https://exploits.shodan.io/api".
Definition ApiStream := "https://stream.shodan.io".

Definition Search := "/search".
Definition Count := "/count".

Definition ShodanHostView := "/shodan/host/%s".
Definition ShodanHostCount := "/shodan/host/count".
Definition ShodanHostSearch := "/shodan/host/search".
Definition ShodanHostSearchTokens := "/shodan/host/search/tokens".
Definition ShodanPorts := "/shodan/ports".
Definition ShodanServices := "/shodan/services".
Definition ShodanProtocols := "/shodan/protocols".
Definition ShodanScan := "/shodan/scan".
Definition ShodanScans := "/shodan/scans".
Definition ShodanScanView := "/shodan/scan/%s".
Definition ShodanScanInternet := "/shodan/scan/internet".
Definition ShodanQuery := "/shodan/query".
Definition ShodanQuerySearch := "/shodan/query/search".
Definition ShodanQueryTags := "/shodan/query/tags".
Definition ShodanAlert := "/shodan/alert".
Definition ShodanAlertInfo := "/shodan/alert/info".
Definition ShodanAlertId := "/shodan/alert/%s".
Definition ShodanAlertIdInfo := "/shodan/alert/%s/info".
Definition ShodanAlertTriggers := "/shodan/alert/triggers".
Definition ShodanAlertTriggerAction := "/shodan/alert/%s/trigger/%s".
Definition ShodanAlertTriggerNotificationAction :=
  "/shodan/alert/%s/trigger/%s/ignore/%s".
Definition ShodanData := "/shodan/data".
Definition ShodanDataset := "/shodan/data/%s".
Definition Org := "/org".
Definition OrgMember := "/org/member/%s".
Definition AccountProfile := "/account/profile".
Definition DnsResolve := "/dns/resolve".
Definition DnsReverse := "/dns/reverse".
Definition ToolsHTTPHeaders := "/tools/httpheaders".
Definition ToolsMyIP := "/tools/myip".
Definition ApiInfo := "/api-info".
Definition LabsHoneyscore := "/labs/honeyscore/%s".

(** The base URLs the constant block declares, in declaration order. *)
Definition base_urls : list string := [ApiRoot; ApiExploits; ApiStream].
End routes.

Module http.
Definition MethodGet := "GET".
Definition MethodPost := "POST".
Definition MethodPut := "PUT".
Definition MethodDelete := "DELETE".
End http.

(** ** Result types and external collaborators *)

(** The result type of each method (the [models] package and the built-in
    types decoded into). *)
Inductive GoType : Type :=
| models_Host | models_SearchResult | models_Tokens | slice_int
| map_string_string | models_Scan | models_ScanList | models_SearchQueries
| models_QueryTags | slice_models_Dataset | slice_models_DatasetFile
| models_Org | models_SimpleResponse | models_Profile
| map_string_slice_string | models_Domain | go_string | go_float32
| models_AlertDetails | go_interface | slice_models_AlertDetails
| slice_models_Trigger | models_ExploitResult | models_ApiInfo.

(** What one dispatcher call hands back: the value the response body decodes
    to, if the dispatcher got as far as decoding, and the error it returns. *)
Record Outcome (T : Type) : Type := mkOutcome {
  decoded : option T;
  failure : option error
}.
Arguments mkOutcome {T} decoded failure.
Arguments decoded {T} o.
Arguments failure {T} o.

(** How the decode destination was passed: [&result] or [result]. *)
Inductive DestKind : Type := ByReference | ByValue.

(** One call into the dispatcher, with the arguments of the call site. *)
Inductive Call : Type :=
| call_get (route : string) (params : url_Values) (dest : DestKind)
| call_request (method route : string) (params : url_Values)
    (body : option Reader) (header : option http_Header) (dest : DestKind)
| call_requestExploits (method route : string) (params : url_Values)
    (body : option Reader) (header : option http_Header) (dest : DestKind).

(** What a method does to the outside world, in order. *)
Inductive Event : Type :=
| Stdout (text : string)
| Dispatch (c : Call).

(** Everything the methods take from outside methods.go and routes.go. *)
Record Env : Type := mkEnv {
  (** the Go type behind each result type, and its zero value *)
  model : GoType -> Type;
  zero : forall t, model t;
  (** package [search]: parameter types and their encoders *)
  search_HostParams : Type;
  search_Params : Type;
  search_ExploitParams : Type;
  HostParams_IP : search_HostParams -> string;
  HostParams_ToURLValues : search_HostParams -> url_Values;
  Params_ToURLValues : search_Params -> url_Values;
  ExploitParams_ToURLValues : search_ExploitParams -> url_Values;
  (** [models.Alert] and [json.Marshal] on it *)
  models_Alert : Type;
  json_Marshal : models_Alert -> string * option error;
  (** [url.Values.Encode] *)
  Values_Encode : gmap string (list string) -> string;
  (** the path template [routes.DnsDomain], which methods.go uses and the
      route table at hand does not declare *)
  routes_DnsDomain : string;
  (** the network side of the dispatcher: the outcome of a call, which may
      depend on everything the method did before *)
  transport : list Event -> Call -> forall t, Outcome (model t)
}.

(** ** Method frames *)

Section Methods.
Context (E : Env).

(** The named results of a method and the trace of its effects. *)
Record Frame (t : GoType) : Type := mkFrame {
  result : model E t;
  err : option error;
  log : list Event
}.
Arguments mkFrame {t} result err log.
Arguments result {t} f.
Arguments err {t} f.
Arguments log {t} f.

(** A method starts with zero-valued results. *)
Definition entry (t : GoType) : Frame t := mkFrame (zero E t) None [].

Definition M (t : GoType) (A : Type) : Type := Frame t -> A * Frame t.

Definition ret {t A} (a : A) : M t A := fun f => (a, f).

Definition bind {t A B} (m : M t A) (k : A -> M t B) : M t B :=
  fun f => let (a, f') := m f in k a f'.

(** Running the body of a method from its entry frame. *)
Definition body_of {t} (m : M t unit) : Frame t := snd (m (entry t)).

(** [err = e] *)
Definition set_err {t} (e : option error) : M t unit :=
  fun f => (tt, mkFrame (result f) e (log f)).

(** reading the variable [result] *)
Definition read_result {t} : M t (model E t) := fun f => (result f, f).

(** [fmt.Println(s)] *)
Definition fmt_Println {t} (s : string) : M t unit :=
  fun f => (tt, mkFrame (result f) (err f)
                  (log f ++ [Stdout (s ++ String "010"%char "")])).

(** The decode destination handed to the dispatcher: either the address of
    the method's [result] variable, or a copy of some value. *)
Inductive Dest (t : GoType) : Type :=
| addr_result
| copy_of (v : model E t).
Arguments addr_result {t}.
Arguments copy_of {t} v.

Definition kind_of {t} (d : Dest t) : DestKind :=
  match d with
  | addr_result => ByReference
  | copy_of _ => ByValue
  end.

(** Modelled from the spec: the write of the request dispatcher to its
    decode destination (client.go is not among the sources).  The dispatcher
    "populates the decode destination by deserializing the response body" and
    "only writes into it once": a decoded value is stored through a
    destination that is the address of [result].  A destination passed by
    value is, by Go's argument passing, a copy boxed in the interface value:
    no store through it reaches the method's variable, which keeps what it
    held. *)
Definition store_through {t} (d : Dest t) (dec : option (model E t))
    (held : model E t) : model E t :=
  match d, dec with
  | addr_result, Some v => v
  | addr_result, None => held
  | copy_of _, _ => held
  end.

Definition dispatch {t} (c : Call) (d : Dest t) : M t (option error) :=
  fun f =>
    let o := transport E (log f) c t in
    (failure o,
     mkFrame (store_through d (decoded o) (result f)) (err f)
             (log f ++ [Dispatch c])).

(** [c.get(ctx, route, params, dest)] *)
Definition get {t} (route : string) (params : url_Values) (d : Dest t)
  : M t (option error) :=
  dispatch (call_get route params (kind_of d)) d.

(** [c.request(ctx, method, route, params, body, header, dest)] *)
Definition request {t} (method route : string) (params : url_Values)
    (body : option Reader) (header : option http_Header) (d : Dest t)
  : M t (option error) :=
  dispatch (call_request method route params body header (kind_of d)) d.

(** [c.requestExploits(ctx, method, route, params, body, header, dest)] *)
Definition requestExploits {t} (method route : string) (params : url_Values)
    (body : option Reader) (header : option http_Header) (d : Dest t)
  : M t (option error) :=
  dispatch (call_requestExploits method route params body header (kind_of d)) d.

Declare Scope go_scope.
Delimit Scope go_scope with go.
Notation "x <- m ;; k" := (bind m (fun x => k))
  (at level 100, m at next level, k at level 200, right associativity) : go_scope.
Notation "m ;; k" := (bind m (fun _ => k))
  (at level 100, k at level 200, right associativity) : go_scope.
Local Open Scope go_scope.

(** reading the variable [err] *)
Definition read_err {t} : M t (option error) := fun f => (err f, f).

(** ** The methods of methods.go

    The [ctx] argument is only forwarded to the dispatcher and is left out.
    An early [return] is the end of its branch. *)

Definition Host (params : search_HostParams E) : Frame models_Host :=
  body_of (
    let route := fmt_Sprintf routes.ShodanHostView [HostParams_IP E params] in
    e <- get route (HostParams_ToURLValues E params) addr_result ;;
    set_err e).

Definition Count (params : search_Params E) : Frame models_SearchResult :=
  body_of (
    e <- get routes.ShodanHostCount (Params_ToURLValues E params) addr_result ;;
    set_err e).

Definition Search (params : search_Params E) : Frame models_SearchResult :=
  body_of (
    let values := Params_ToURLValues E params in
    if len_map values =? 0 then
      set_err (Some errEmptyParams)
    else
      e <- get routes.ShodanHostSearch values addr_result ;;
      set_err e).

Definition SearchTokens (params : search_Params E) : Frame models_Tokens :=
  body_of (
    let values := Params_ToURLValues E params in
    if len_map values =? 0 then
      set_err (Some errEmptyParams)
    else
      e <- get routes.ShodanHostSearchTokens values addr_result ;;
      set_err e).

Definition Ports : Frame slice_int :=
  body_of (
    e <- get routes.ShodanPorts None addr_result ;;
    set_err e).

Definition Protocols : Frame map_string_string :=
  body_of (
    e <- get routes.ShodanProtocols None addr_result ;;
    set_err e).

Definition Services : Frame map_string_string :=
  body_of (
    e <- get routes.ShodanServices None addr_result ;;
    set_err e).

Definition SubmitScan (ips : slice string) (force : bool) : Frame models_Scan :=
  body_of (
    if is_nil ips || (len ips =? 0) then
      set_err (Some errEmptyParams)
    else
      let params := make_map in
      let params := map_Set params "ips" (strings_Join ips ",") in
      let params := if force then map_Set params "force" "true" else params in
      let body := strings_NewReader (Values_Encode E params) in
      let header := make_map in
      let header := map_Set header "Content-Type" "application/x-www-form-urlencoded" in
      e <- request http.MethodPost routes.ShodanScan None (Some body) (Some header)
             addr_result ;;
      set_err e).

Definition ListScans (page : N) : Frame models_ScanList :=
  body_of (
    let params := make_map in
    let params :=
      if (page <? 1)%N then map_Set params "page" "1"
      else map_Set params "page" (fmt_Sprint page) in
    e <- get routes.ShodanScans (Some params) addr_result ;;
    set_err e).

Definition GetScan (scanID : string) : Frame models_Scan :=
  body_of (
    if String.eqb scanID "" then
      set_err (Some (errors_New "empty scanID"))
    else
      let route := fmt_Sprintf routes.ShodanScanView [scanID] in
      e <- request http.MethodGet route None None None addr_result ;;
      set_err e).

Definition ScanInternet (port : N) (protocol : string) : Frame models_Scan :=
  body_of (
    if String.eqb protocol "" then
      set_err (Some (errors_New "empty protocol"))
    else
      let params := make_map in
      let params := map_Set params "port" (fmt_Sprint port) in
      let params := map_Set params "protocol" protocol in
      let body := strings_NewReader (Values_Encode E params) in
      let header := make_map in
      let header := map_Set header "Content-Type" "application/x-www-form-urlencoded" in
      r <- read_result ;;
      e <- request http.MethodPost routes.ShodanScanInternet None (Some body)
             (Some header) (copy_of r) ;;
      set_err e).

Definition QueryList (page : N) (sort order : string) : Frame models_SearchQueries :=
  body_of (
    let params := make_map in
    let params := if (0 <? page)%N then map_Set params "page" (fmt_Sprint page) else params in
    let params := if negb (String.eqb sort "") then map_Set params "sort" sort else params in
    let params := if negb (String.eqb order "") then map_Set params "order" order else params in
    e <- get routes.ShodanQuery (Some params) addr_result ;;
    set_err e).

Definition QuerySearch (query : string) (page : N) : Frame models_SearchQueries :=
  body_of (
    if String.eqb query "" then
      set_err (Some (errors_New "empty search query"))
    else
      let params := make_map in
      let params := map_Set params "query" query in
      let params := if (0 <? page)%N then map_Set params "page" (fmt_Sprint page) else params in
      e <- get routes.ShodanQuerySearch (Some params) addr_result ;;
      set_err e).

Definition QueryTags (size : N) : Frame models_QueryTags :=
  body_of (
    let params := make_map in
    let params := if (0 <? size)%N then map_Set params "size" (fmt_Sprint size) else params in
    e <- get routes.ShodanQueryTags (Some params) addr_result ;;
    set_err e).

Definition Datasets : Frame slice_models_Dataset :=
  body_of (
    e <- get routes.ShodanData None addr_result ;;
    set_err e).

Definition DatasetFiles (dataset : string) : Frame slice_models_DatasetFile :=
  body_of (
    if String.eqb dataset "" then
      set_err (Some (errors_New "empty dataset id"))
    else
      let route := fmt_Sprintf routes.ShodanDataset [dataset] in
      e <- get route None addr_result ;;
      set_err e).

Definition Org : Frame models_Org :=
  body_of (
    e <- get routes.Org None addr_result ;;
    set_err e).

Definition AddOrgMember (username : string) (notify : bool) : Frame models_SimpleResponse :=
  body_of (
    if String.eqb username "" then
      set_err (Some errEmptyUsername)
    else
      let route := fmt_Sprintf routes.OrgMember [username] in
      let params := make_map in
      let params := if notify then map_Set params "notify" "true" else params in
      e <- request http.MethodPut route (Some params) None None addr_result ;;
      set_err e).

Definition DeleteOrgMember (username : string) : Frame models_SimpleResponse :=
  body_of (
    if String.eqb username "" then
      set_err (Some errEmptyUsername)
    else
      let route := fmt_Sprintf routes.OrgMember [username] in
      e <- request http.MethodDelete route None None None addr_result ;;
      set_err e).

Definition AccountProfile : Frame models_Profile :=
  body_of (
    e <- get routes.AccountProfile None addr_result ;;
    set_err e).

Definition DnsResolve (hostnames : slice string) : Frame map_string_string :=
  body_of (
    if is_nil hostnames || (len hostnames =? 0) then
      set_err (Some errEmptyParams)
    else
      let joined := strings_Join hostnames "," in
      if len_string joined >? hostnamesLenLimit then
        set_err (Some errBigRequest)
      else
        let params := make_map in
        let params := map_Set params "hostnames" joined in
        e <- get routes.DnsResolve (Some params) addr_result ;;
        set_err e).

Definition DnsReverse (ips : slice string) : Frame map_string_slice_string :=
  body_of (
    if is_nil ips || (len ips =? 0) then
      set_err (Some errEmptyParams)
    else
      let joined := strings_Join ips "," in
      if len_string joined >? ipsLenLimit then
        set_err (Some errBigRequest)
      else
        let params := make_map in
        let params := map_Set params "ips" joined in
        e <- get routes.DnsReverse (Some params) addr_result ;;
        set_err e).

Definition DnsDomain (domain : string) : Frame models_Domain :=
  body_of (
    if String.eqb domain "" then
      set_err (Some (errors_New "domain is required"))
    else
      let route := fmt_Sprintf (routes_DnsDomain E) [domain] in
      e <- get route None addr_result ;;
      set_err e).

Definition HttpHeaders : Frame map_string_string :=
  body_of (
    e <- get routes.ToolsHTTPHeaders None addr_result ;;
    set_err e).

Definition MyIP : Frame go_string :=
  body_of (
    e <- get routes.ToolsMyIP None addr_result ;;
    set_err e).

Definition ApiInfo : Frame models_ApiInfo :=
  body_of (
    e <- get routes.ApiInfo None addr_result ;;
    set_err e).

Definition Honeyscore (ip : string) : Frame go_float32 :=
  body_of (
    if String.eqb ip "" then
      set_err (Some (errors_New "ip is required"))
    else
      let route := fmt_Sprintf routes.LabsHoneyscore [ip] in
      e <- get route None addr_result ;;
      set_err e).

(** [body, err := json.Marshal(alert)] assigns the method's own [err]: the
    named results are in the scope of the function body.  [body] is a byte
    string, so [string(body)] is the same bytes. *)
Definition CreateAlert (alert : models_Alert E) : Frame models_AlertDetails :=
  body_of (
    let (body, e) := json_Marshal E alert in
    set_err e ;;
    fmt_Println body ;;
    e <- read_err ;;
    match e with
    | Some _ => ret tt
    | None =>
        let header := make_map in
        let header := map_Set header "Content-Type" "application/json" in
        e <- request http.MethodPost routes.ShodanAlert None
               (Some (bytes_NewReader body)) (Some header) addr_result ;;
        set_err e
    end).

Definition AlertInfo (alertID : string) : Frame models_AlertDetails :=
  body_of (
    if String.eqb alertID "" then
      set_err (Some errEmptyAlertID)
    else
      let route := fmt_Sprintf routes.ShodanAlertIdInfo [alertID] in
      e <- get route None addr_result ;;
      set_err e).

Definition DeleteAlert (alertID : string) : Frame go_interface :=
  body_of (
    if String.eqb alertID "" then
      set_err (Some errEmptyAlertID)
    else
      let route := fmt_Sprintf routes.ShodanAlertId [alertID] in
      e <- request http.MethodDelete route None None None addr_result ;;
      set_err e).

Definition ListAlerts : Frame slice_models_AlertDetails :=
  body_of (
    e <- get routes.ShodanAlertInfo None addr_result ;;
    set_err e).

Definition ListTriggers : Frame slice_models_Trigger :=
  body_of (
    e <- get routes.ShodanAlertTriggers None addr_result ;;
    set_err e).

Definition CreateAlertTrigger (alertID triggerName : string) : Frame models_SimpleResponse :=
  body_of (
    if String.eqb alertID "" then
      set_err (Some errEmptyAlertID)
    else if String.eqb triggerName "" then
      set_err (Some errEmptyTriggerName)
    else
      let route := fmt_Sprintf routes.ShodanAlertTriggerAction [alertID; triggerName] in
      e <- request http.MethodPut route None None None addr_result ;;
      set_err e).

Definition DeleteAlertTrigger (alertID triggerName : string) : Frame models_SimpleResponse :=
  body_of (
    if String.eqb alertID "" then
      set_err (Some errEmptyAlertID)
    else if String.eqb triggerName "" then
      set_err (Some errEmptyTriggerName)
    else
      let route := fmt_Sprintf routes.ShodanAlertTriggerAction [alertID; triggerName] in
      e <- request http.MethodDelete route None None None addr_result ;;
      set_err e).

Definition CreateTriggerIgnore (alertID triggerName service : string)
  : Frame models_SimpleResponse :=
  body_of (
    if String.eqb alertID "" then
      set_err (Some errEmptyAlertID)
    else if String.eqb triggerName "" then
      set_err (Some errEmptyTriggerName)
    else if String.eqb service "" then
      set_err (Some errEmptyService)
    else
      let route := fmt_Sprintf routes.ShodanAlertTriggerNotificationAction
                     [alertID; triggerName; service] in
      e <- request http.MethodPut route None None None addr_result ;;
      set_err e).

Definition DeleteTriggerIgnore (alertID triggerName service : string)
  : Frame models_SimpleResponse :=
  body_of (
    if String.eqb alertID "" then
      set_err (Some errEmptyAlertID)
    else if String.eqb triggerName "" then
      set_err (Some errEmptyTriggerName)
    else if String.eqb service "" then
      set_err (Some errEmptyService)
    else
      let route := fmt_Sprintf routes.ShodanAlertTriggerNotificationAction
                     [alertID; triggerName; service] in
      e <- request http.MethodDelete route None None None addr_result ;;
      set_err e).

Definition ExploitSearch (params : search_ExploitParams E) : Frame models_ExploitResult :=
  body_of (
    let values := ExploitParams_ToURLValues E params in
    if len_map values =? 0 then
      set_err (Some errEmptyParams)
    else
      e <- requestExploits http.MethodGet routes.Search values None None addr_result ;;
      set_err e).

Definition ExploitCount (params : search_ExploitParams E) : Frame models_ExploitResult :=
  body_of (
    let values := ExploitParams_ToURLValues E params in
    if len_map values =? 0 then
      set_err (Some errEmptyParams)
    else
      e <- requestExploits http.MethodGet routes.Count values None None addr_result ;;
      set_err e).

(** ** One invocation of any method *)

Inductive Invocation : Type :=
| inv_Host (params : search_HostParams E)
| inv_Count (params : search_Params E)
| inv_Search (params : search_Params E)
| inv_SearchTokens (params : search_Params E)
| inv_Ports
| inv_Protocols
| inv_Services
| inv_SubmitScan (ips : slice string) (force : bool)
| inv_ListScans (page : N)
| inv_GetScan (scanID : string)
| inv_ScanInternet (port : N) (protocol : string)
| inv_QueryList (page : N) (sort order : string)
| inv_QuerySearch (query : string) (page : N)
| inv_QueryTags (size : N)
| inv_Datasets
| inv_DatasetFiles (dataset : string)
| inv_Org
| inv_AddOrgMember (username : string) (notify : bool)
| inv_DeleteOrgMember (username : string)
| inv_AccountProfile
| inv_DnsResolve (hostnames : slice string)
| inv_DnsReverse (ips : slice string)
| inv_DnsDomain (domain : string)
| inv_HttpHeaders
| inv_MyIP
| inv_ApiInfo
| inv_Honeyscore (ip : string)
| inv_CreateAlert (alert : models_Alert E)
| inv_AlertInfo (alertID : string)
| inv_DeleteAlert (alertID : string)
| inv_ListAlerts
| inv_ListTriggers
| inv_CreateAlertTrigger (alertID triggerName : string)
| inv_DeleteAlertTrigger (alertID triggerName : string)
| inv_CreateTriggerIgnore (alertID triggerName service : string)
| inv_DeleteTriggerIgnore (alertID triggerName service : string)
| inv_ExploitSearch (params : search_ExploitParams E)
| inv_ExploitCount (params : search_ExploitParams E).

(** The effects of an invocation, in order. *)
Definition trace (i : Invocation) : list Event :=
  match i with
  | inv_Host p => log (Host p)
  | inv_Count p => log (Count p)
  | inv_Search p => log (Search p)
  | inv_SearchTokens p => log (SearchTokens p)
  | inv_Ports => log Ports
  | inv_Protocols => log Protocols
  | inv_Services => log Services
  | inv_SubmitScan ips force => log (SubmitScan ips force)
  | inv_ListScans page => log (ListScans page)
  | inv_GetScan scanID => log (GetScan scanID)
  | inv_ScanInternet port protocol => log (ScanInternet port protocol)
  | inv_QueryList page sort order => log (QueryList page sort order)
  | inv_QuerySearch query page => log (QuerySearch query page)
  | inv_QueryTags size => log (QueryTags size)
  | inv_Datasets => log Datasets
  | inv_DatasetFiles dataset => log (DatasetFiles dataset)
  | inv_Org => log Org
  | inv_AddOrgMember username notify => log (AddOrgMember username notify)
  | inv_DeleteOrgMember username => log (DeleteOrgMember username)
  | inv_AccountProfile => log AccountProfile
  | inv_DnsResolve hostnames => log (DnsResolve hostnames)
  | inv_DnsReverse ips => log (DnsReverse ips)
  | inv_DnsDomain domain => log (DnsDomain domain)
  | inv_HttpHeaders => log HttpHeaders
  | inv_MyIP => log MyIP
  | inv_ApiInfo => log ApiInfo
  | inv_Honeyscore ip => log (Honeyscore ip)
  | inv_CreateAlert alert => log (CreateAlert alert)
  | inv_AlertInfo alertID => log (AlertInfo alertID)
  | inv_DeleteAlert alertID => log (DeleteAlert alertID)
  | inv_ListAlerts => log ListAlerts
  | inv_ListTriggers => log ListTriggers
  | inv_CreateAlertTrigger a tn => log (CreateAlertTrigger a tn)
  | inv_DeleteAlertTrigger a tn => log (DeleteAlertTrigger a tn)
  | inv_CreateTriggerIgnore a tn s => log (CreateTriggerIgnore a tn s)
  | inv_DeleteTriggerIgnore a tn s => log (DeleteTriggerIgnore a tn s)
  | inv_ExploitSearch p => log (ExploitSearch p)
  | inv_ExploitCount p => log (ExploitCount p)
  end.

(** The local checks a method makes before it hands a call to the
    dispatcher: the guards on its arguments and, for [CreateAlert], the
    check of the encoding error. *)
Definition nonempty (s : string) : bool := negb (String.eqb s "").

Definition validates (i : Invocation) : bool :=
  match i with
  | inv_Search p | inv_SearchTokens p =>
      negb (len_map (Params_ToURLValues E p) =? 0)
  | inv_ExploitSearch p | inv_ExploitCount p =>
      negb (len_map (ExploitParams_ToURLValues E p) =? 0)
  | inv_SubmitScan ips _ => negb (is_nil ips || (len ips =? 0))
  | inv_DnsResolve hostnames =>
      negb (is_nil hostnames || (len hostnames =? 0))
      && negb (len_string (strings_Join hostnames ",") >? hostnamesLenLimit)
  | inv_DnsReverse ips =>
      negb (is_nil ips || (len ips =? 0))
      && negb (len_string (strings_Join ips ",") >? ipsLenLimit)
  | inv_GetScan s | inv_QuerySearch s _ | inv_DatasetFiles s
  | inv_AddOrgMember s _ | inv_DeleteOrgMember s | inv_DnsDomain s
  | inv_Honeyscore s | inv_AlertInfo s | inv_DeleteAlert s
  | inv_ScanInternet _ s => nonempty s
  | inv_CreateAlertTrigger a tn | inv_DeleteAlertTrigger a tn =>
      nonempty a && nonempty tn
  | inv_CreateTriggerIgnore a tn s | inv_DeleteTriggerIgnore a tn s =>
      nonempty a && nonempty tn && nonempty s
  | inv_CreateAlert alert =>
      match snd (json_Marshal E alert) with
      | None => true
      | Some _ => false
      end
  | inv_Host _ | inv_Count _ | inv_Ports | inv_Protocols | inv_Services
  | inv_ListScans _ | inv_QueryList _ _ _ | inv_QueryTags _ | inv_Datasets
  | inv_Org | inv_AccountProfile | inv_HttpHeaders | inv_MyIP | inv_ApiInfo
  | inv_ListAlerts | inv_ListTriggers => true
  end.

End Methods.

Arguments mkFrame {E t} result err log.
Arguments result {E t} f.
Arguments err {E t} f.
Arguments log {E t} f.
Arguments addr_result {E t}.
Arguments copy_of {E t} v.

(** ** Reading a trace *)

(** The dispatcher calls of a trace, in order. *)
Definition dispatches (l : list Event) : list Call :=
  omap (fun ev => match ev with Dispatch c => Some c | Stdout _ => None end) l.

(** How the decode destination of a call was passed. *)
Definition dest_of (c : Call) : DestKind :=
  match c with
  | call_get _ _ d => d
  | call_request _ _ _ _ _ d => d
  | call_requestExploits _ _ _ _ _ d => d
  end.

(** The query parameters of a call. *)
Definition params_of (c : Call) : url_Values :=
  match c with
  | call_get _ p _ => p
  | call_request _ _ p _ _ _ => p
  | call_requestExploits _ _ p _ _ _ => p
  end.

(** Modelled from the spec: the base URL each dispatcher entry point sends
    to (client.go is not among the sources).  "Two HTTP origins: a general
    API base and a separate exploits-search API base, selected per call":
    [get] and [request] go to the general API, [requestExploits] to the
    exploits API. *)
Definition origin_of (c : Call) : string :=
  match c with
  | call_get _ _ _ => routes.ApiRoot
  | call_request _ _ _ _ _ _ => routes.ApiRoot
  | call_requestExploits _ _ _ _ _ _ => routes.ApiExploits
  end.

(** The two methods that go through [requestExploits]. *)
Definition exploits_method {E} (i : Invocation E) : bool :=
  match i with
  | inv_ExploitSearch _ _ | inv_ExploitCount _ _ => true
  | _ => false
  end.

(** The required arguments of the two trigger-ignore methods in the order
    they are checked, each with the error reported when it is empty, and the
    error of the first empty one. *)
Definition ignore_checks (alertID triggerName service : string)
  : list (string * error) :=
  [(alertID, errEmptyAlertID); (triggerName, errEmptyTriggerName);
   (service, errEmptyService)].

Definition empty_ones (checks : list (string * error)) : list (string * error) :=
  List.filter (fun p => String.eqb (fst p) "") checks.

Definition first_empty (checks : list (string * error)) : option error :=
  snd <$> head (empty_ones checks).

(** ** A transport double

    A fixed environment to run the methods in: every result type is the raw
    response text, parameters are already encoded, every call is answered
    with [reply] and [fail], and encoding an alert reports [marshal]. *)
Definition double (reply : option string) (fail marshal : option error) : Env :=
  {| model := fun _ => string;
     zero := fun _ => "";
     search_HostParams := string * url_Values;
     search_Params := url_Values;
     search_ExploitParams := url_Values;
     HostParams_IP := fst;
     HostParams_ToURLValues := snd;
     Params_ToURLValues := fun v => v;
     ExploitParams_ToURLValues := fun v => v;
     models_Alert := string;
     json_Marshal := fun a =>
       match marshal with
       | None => (a, None)
       | Some e => ("", Some e)
       end;
     Values_Encode := fun _ => "";
     routes_DnsDomain := "/dns/domain/%s";
     transport := fun _ _ _ => mkOutcome reply fail |}.

(** 200 hostnames, 4000 bytes once joined: 199 of 19 bytes, one of 20, and
    199 commas. *)
Definition many_hostnames : slice string :=
  mk_slice (repeat "host-0000.shodan.io" 199 ++ ["host-00000.shodan.io"]).

(** 180 names of 18 bytes: 3419 bytes once joined, between the two
    ceilings. *)
Definition between_ceilings : slice string :=
  mk_slice (repeat "scan-000.shodan.io" 180).

(** ** Reading a call and a returned frame *)

(** The path handed to the dispatcher. *)
Definition route_of (c : Call) : string :=
  match c with
  | call_get r _ _ => r
  | call_request _ r _ _ _ _ => r
  | call_requestExploits _ r _ _ _ _ => r
  end.

(** The verb handed to the dispatcher; [c.get] takes none. *)
Definition verb_of (c : Call) : option string :=
  match c with
  | call_get _ _ _ => None
  | call_request m _ _ _ _ _ => Some m
  | call_requestExploits m _ _ _ _ _ => Some m
  end.

(** The request body and the extra headers handed to the dispatcher; [c.get]
    takes neither. *)
Definition body_sent (c : Call) : option Reader :=
  match c with
  | call_get _ _ _ => None
  | call_request _ _ _ b _ _ => b
  | call_requestExploits _ _ _ b _ _ => b
  end.

Definition header_sent (c : Call) : option http_Header :=
  match c with
  | call_get _ _ _ => None
  | call_request _ _ _ _ h _ => h
  | call_requestExploits _ _ _ _ h _ => h
  end.

(** What a trace wrote to standard output, in order. *)
Definition printed (l : list Event) : list string :=
  omap (fun ev => match ev with Stdout s => Some s | Dispatch _ => None end) l.

(** The frame an invocation returns, with its result type. *)
Definition frame_of {E} (i : Invocation E) : {t : GoType & Frame E t} :=
  match i with
  | inv_Host _ x => existT _ (Host E x)
  | inv_Count _ x => existT _ (Count E x)
  | inv_Search _ x => existT _ (Search E x)
  | inv_SearchTokens _ x => existT _ (SearchTokens E x)
  | inv_Ports _ => existT _ (Ports E)
  | inv_Protocols _ => existT _ (Protocols E)
  | inv_Services _ => existT _ (Services E)
  | inv_SubmitScan _ x y => existT _ (SubmitScan E x y)
  | inv_ListScans _ x => existT _ (ListScans E x)
  | inv_GetScan _ x => existT _ (GetScan E x)
  | inv_ScanInternet _ x y => existT _ (ScanInternet E x y)
  | inv_QueryList _ x y z => existT _ (QueryList E x y z)
  | inv_QuerySearch _ x y => existT _ (QuerySearch E x y)
  | inv_QueryTags _ x => existT _ (QueryTags E x)
  | inv_Datasets _ => existT _ (Datasets E)
  | inv_DatasetFiles _ x => existT _ (DatasetFiles E x)
  | inv_Org _ => existT _ (Org E)
  | inv_AddOrgMember _ x y => existT _ (AddOrgMember E x y)
  | inv_DeleteOrgMember _ x => existT _ (DeleteOrgMember E x)
  | inv_AccountProfile _ => existT _ (AccountProfile E)
  | inv_DnsResolve _ x => existT _ (DnsResolve E x)
  | inv_DnsReverse _ x => existT _ (DnsReverse E x)
  | inv_DnsDomain _ x => existT _ (DnsDomain E x)
  | inv_HttpHeaders _ => existT _ (HttpHeaders E)
  | inv_MyIP _ => existT _ (MyIP E)
  | inv_ApiInfo _ => existT _ (ApiInfo E)
  | inv_Honeyscore _ x => existT _ (Honeyscore E x)
  | inv_CreateAlert _ x => existT _ (CreateAlert E x)
  | inv_AlertInfo _ x => existT _ (AlertInfo E x)
  | inv_DeleteAlert _ x => existT _ (DeleteAlert E x)
  | inv_ListAlerts _ => existT _ (ListAlerts E)
  | inv_ListTriggers _ => existT _ (ListTriggers E)
  | inv_CreateAlertTrigger _ x y => existT _ (CreateAlertTrigger E x y)
  | inv_DeleteAlertTrigger _ x y => existT _ (DeleteAlertTrigger E x y)
  | inv_CreateTriggerIgnore _ x y z => existT _ (CreateTriggerIgnore E x y z)
  | inv_DeleteTriggerIgnore _ x y z => existT _ (DeleteTriggerIgnore E x y z)
  | inv_ExploitSearch _ x => existT _ (ExploitSearch E x)
  | inv_ExploitCount _ x => existT _ (ExploitCount E x)
  end.

(** The three methods that send a request body. *)
Definition carries_body {E} (i : Invocation E) : bool :=
  match i with
  | inv_SubmitScan _ _ _ | inv_ScanInternet _ _ _ | inv_CreateAlert _ _ => true
  | _ => false
  end.

(** The sum of the byte lengths of the elements of a list. *)
Definition total_length (l : list string) : nat :=
  fold_right (fun s n => (String.length s + n)%nat) 0%nat l.

(** 1789 one-byte hostnames, and 1788 of them. *)
Definition too_many_hostnames : slice string := mk_slice (repeat "a" 1789).
Definition just_enough_hostnames : slice string := mk_slice (repeat "a" 1788).

(** * Properties *)

(** ** The Go library functions on concrete inputs *)

Example strings_Join_three :
  strings_Join (mk_slice ["a.io"; "b.io"; "c.io"]) "," = "a.io,b.io,c.io".
Proof. reflexivity. Qed.

Example strings_Join_one : strings_Join (mk_slice ["a.io"]) "," = "a.io".
Proof. reflexivity. Qed.

Example strings_Join_nil : strings_Join nil_slice "," = "".
Proof. reflexivity. Qed.

Example fmt_Sprint_numerals :
  fmt_Sprint 0 = "0" /\ fmt_Sprint 7 = "7" /\ fmt_Sprint 65535 = "65535".
Proof. repeat split; reflexivity. Qed.

Example fmt_Sprintf_route :
  fmt_Sprintf routes.ShodanAlertTriggerNotificationAction ["A1"; "malware"; "1.2.3.4:80"]
  = "/shodan/alert/A1/trigger/malware/ignore/1.2.3.4:80".
Proof. reflexivity. Qed.

Example many_hostnames_size :
  len many_hostnames = 200 /\ len_string (strings_Join many_hostnames ",") = 4000.
Proof. split; vm_compute; reflexivity. Qed.

Example between_ceilings_size :
  len_string (strings_Join between_ceilings ",") = 3419.
Proof. vm_compute; reflexivity. Qed.

(** ** Method bodies *)

Ltac run_body :=
  unfold body_of, bind, get, request, requestExploits, dispatch, set_err,
    read_err, read_result, ret, fmt_Println, entry;
  cbn [fst snd log err result app kind_of].

(** A method that fails a guard leaves no trace. *)
Lemma early_return E t (e : option error) :
  body_of E (set_err E e) = mkFrame (zero E t) e [].
Proof. reflexivity. Qed.

(** A method that hands one call to the dispatcher through [&result]. *)
Lemma one_call E t (c : Call) :
  body_of E (bind E (dispatch E c addr_result) (set_err E))
  = mkFrame (store_through E addr_result (decoded (transport E [] c t)) (zero E t))
            (failure (transport E [] c t))
            [Dispatch c].
Proof. reflexivity. Qed.

Lemma bulk_guard (names : slice string) :
  0 < len names -> is_nil names || (len names =? 0) = false.
Proof.
  intros H. destruct names as [|l]; [ discriminate H | ].
  apply orb_false_iff. split; [ reflexivity | apply Z.eqb_neq; lia ].
Qed.

(** Claim C1.  For a non-empty list of hostnames, [DnsResolve] fails with
    [errBigRequest] and without any effect (no dispatcher call) exactly when
    the comma-joined string is longer than 3575 bytes; when it is at most
    3575 bytes long, however many hostnames there are, the one call to the
    dispatcher is made with the joined string as the [hostnames] parameter
    and the method returns the dispatcher's error. *)
Theorem DnsResolve_big_request (E : Env) (hostnames : slice string) :
  0 < len hostnames ->
  let joined := strings_Join hostnames "," in
  let f := DnsResolve E hostnames in
  ((err f = Some errBigRequest /\ log f = []) <-> 3575 < len_string joined)
  /\ (len_string joined <= 3575 ->
      let c := call_get routes.DnsResolve (Some {[ "hostnames" := [joined] ]})
                 ByReference in
      log f = [Dispatch c] /\
      err f = failure (transport E [] c map_string_string)).
Proof.
  intros Hne joined f. subst f. unfold DnsResolve.
  rewrite (bulk_guard _ Hne). fold joined.
  unfold hostnamesLenLimit.
  destruct (Z.gtb_spec (len_string joined) 3575) as [Hbig | Hok].
  - rewrite early_return. cbn [err log]. split; [ split; auto | lia ].
  - unfold get. rewrite one_call. cbn [err log]. split.
    + split; [ intros [_ H]; discriminate H | lia ].
    + intros _. split; reflexivity.
Qed.

(** Claim C2.  For a non-empty list of IP addresses, [DnsReverse] fails with
    [errBigRequest] and without any effect exactly when the comma-joined
    string is longer than 3369 bytes; otherwise the one call is made with the
    joined string as the [ips] parameter.  The ceiling 3369 is not the
    ceiling 3575 of [DnsResolve]. *)
Theorem DnsReverse_big_request (E : Env) (ips : slice string) :
  0 < len ips ->
  let joined := strings_Join ips "," in
  let f := DnsReverse E ips in
  ((err f = Some errBigRequest /\ log f = []) <-> 3369 < len_string joined)
  /\ (len_string joined <= 3369 ->
      let c := call_get routes.DnsReverse (Some {[ "ips" := [joined] ]})
                 ByReference in
      log f = [Dispatch c] /\
      err f = failure (transport E [] c map_string_slice_string))
  /\ ipsLenLimit = 3369 /\ hostnamesLenLimit = 3575
  /\ ipsLenLimit <> hostnamesLenLimit.
Proof.
  intros Hne joined f. subst f. unfold DnsReverse.
  rewrite (bulk_guard _ Hne). fold joined.
  unfold ipsLenLimit, hostnamesLenLimit.
  destruct (Z.gtb_spec (len_string joined) 3369) as [Hbig | Hok].
  - rewrite early_return. cbn [err log].
    repeat split; auto; try lia.
  - unfold get. rewrite one_call. cbn [err log].
    repeat split; try lia; try reflexivity.
    intros [_ H]. discriminate H.
Qed.

(** Claim C3.  [ScanInternet] hands the dispatcher a copy of [result], not
    its address: every call it makes carries a by-value destination, and
    whatever the exchange decodes, the [result] the method returns is the
    zero value of [models.Scan]. *)
Theorem ScanInternet_result_never_decoded (E : Env) (port : N) (protocol : string) :
  let f := ScanInternet E port protocol in
  result f = zero E models_Scan
  /\ Forall (fun c => dest_of c = ByValue) (dispatches (log f))
  /\ length (dispatches (log f)) = if String.eqb protocol "" then 0%nat else 1%nat.
Proof.
  unfold ScanInternet. destruct (String.eqb protocol "").
  - rewrite early_return. split; [ reflexivity | split; [ constructor | reflexivity ] ].
  - run_body. split; [ reflexivity | ].
    split; [ repeat constructor | reflexivity ].
Qed.

(** By contrast, a method that passes [&result] returns what the exchange
    decoded. *)
Lemma SubmitScan_result_decoded (E : Env) (ips : slice string) (force : bool) :
  0 < len ips ->
  exists c, log (SubmitScan E ips force) = [Dispatch c]
    /\ dest_of c = ByReference
    /\ forall v, decoded (transport E [] c models_Scan) = Some v ->
         result (SubmitScan E ips force) = v.
Proof.
  intros Hne. unfold SubmitScan. rewrite (bulk_guard _ Hne).
  unfold request. rewrite one_call. eexists. split; [ reflexivity | ].
  split; [ reflexivity | ].
  intros v Hv. cbn [result]. rewrite Hv. reflexivity.
Qed.

(** Claim C5.  [SubmitScan] with a nil or an empty IP list fails with
    [errEmptyParams] and without any effect: no call reaches the
    dispatcher. *)
Theorem SubmitScan_no_ips (E : Env) (ips : slice string) (force : bool) :
  ips = nil_slice \/ ips = mk_slice [] ->
  let f := SubmitScan E ips force in
  err f = Some errEmptyParams /\ log f = [] /\ dispatches (log f) = []
  /\ Error errEmptyParams = "empty parameters".
Proof.
  intros [-> | ->]; repeat split; reflexivity.
Qed.

(** Claim C6.  [Search], [SearchTokens], [ExploitSearch] and [ExploitCount]
    called with parameters that encode to an empty (or nil) mapping return
    [errEmptyParams] and make no call to the dispatcher. *)
Theorem empty_parameters_rejected (E : Env) :
  (forall p : search_Params E,
     Params_ToURLValues E p = None \/ Params_ToURLValues E p = Some ∅ ->
     (err (Search E p) = Some errEmptyParams /\ log (Search E p) = [])
     /\ (err (SearchTokens E p) = Some errEmptyParams
         /\ log (SearchTokens E p) = []))
  /\ (forall p : search_ExploitParams E,
     ExploitParams_ToURLValues E p = None
     \/ ExploitParams_ToURLValues E p = Some ∅ ->
     (err (ExploitSearch E p) = Some errEmptyParams
      /\ log (ExploitSearch E p) = [])
     /\ (err (ExploitCount E p) = Some errEmptyParams
         /\ log (ExploitCount E p) = [])).
Proof.
  split; intros p Hp.
  - unfold Search, SearchTokens.
    destruct Hp as [-> | ->]; repeat split; reflexivity.
  - unfold ExploitSearch, ExploitCount.
    destruct Hp as [-> | ->]; repeat split; reflexivity.
Qed.

Lemma eqb_empty (s : string) : String.eqb s "" = true <-> s = "".
Proof. apply String.eqb_eq. Qed.

Lemma first_empty_ignore (a tn s : string) :
  first_empty (ignore_checks a tn s)
  = if String.eqb a "" then Some errEmptyAlertID
    else if String.eqb tn "" then Some errEmptyTriggerName
    else if String.eqb s "" then Some errEmptyService
    else None.
Proof.
  unfold first_empty, empty_ones, ignore_checks.
  destruct (String.eqb_spec a ""), (String.eqb_spec tn ""), (String.eqb_spec s "");
    subst; cbn [List.filter fst]; rewrite ?String.eqb_refl;
    repeat match goal with
           | H : ?x <> "" |- context [String.eqb ?x ""] =>
               rewrite (proj2 (String.eqb_neq x "") H)
           end; reflexivity.
Qed.

(** Claim C7.  When more than one of [alertID], [triggerName], [service] is
    empty, [CreateTriggerIgnore] and [DeleteTriggerIgnore] return the error of
    the first empty one in that order, and leave no trace: no call reaches
    the dispatcher. *)
Theorem trigger_ignore_first_error (E : Env) (alertID triggerName service : string) :
  (1 < length (empty_ones (ignore_checks alertID triggerName service)))%nat ->
  let expected := first_empty (ignore_checks alertID triggerName service) in
  is_Some expected
  /\ err (CreateTriggerIgnore E alertID triggerName service) = expected
  /\ log (CreateTriggerIgnore E alertID triggerName service) = []
  /\ err (DeleteTriggerIgnore E alertID triggerName service) = expected
  /\ log (DeleteTriggerIgnore E alertID triggerName service) = [].
Proof.
  intros Hmany expected. subst expected. rewrite first_empty_ignore.
  unfold CreateTriggerIgnore, DeleteTriggerIgnore.
  destruct (String.eqb_spec alertID "") as [-> | Ha].
  { rewrite !early_return. repeat split; eauto. }
  destruct (String.eqb_spec triggerName "") as [-> | Htn].
  { rewrite !early_return. repeat split; eauto. }
  exfalso. revert Hmany. unfold empty_ones, ignore_checks.
  cbn [List.filter fst].
  rewrite (proj2 (String.eqb_neq _ _) Ha), (proj2 (String.eqb_neq _ _) Htn).
  destruct (String.eqb service ""); cbn [length]; lia.
Qed.

(** Claim C8.  Every method makes at most one call to the dispatcher per
    invocation: exactly one when its local checks pass, none when one of them
    fails. *)
Theorem one_dispatch_per_invocation (E : Env) (i : Invocation E) :
  (length (dispatches (trace E i)) <= 1)%nat
  /\ length (dispatches (trace E i)) = if validates E i then 1%nat else 0%nat.
Proof.
  assert (H : length (dispatches (trace E i))
              = if validates E i then 1%nat else 0%nat).
  { destruct i; cbn [trace validates];
      unfold nonempty, Search, SearchTokens, SubmitScan, GetScan, ScanInternet,
        QuerySearch, DatasetFiles, AddOrgMember, DeleteOrgMember, DnsResolve,
        DnsReverse, DnsDomain, Honeyscore, CreateAlert, AlertInfo, DeleteAlert,
        CreateAlertTrigger, DeleteAlertTrigger, CreateTriggerIgnore,
        DeleteTriggerIgnore, ExploitSearch, ExploitCount;
      repeat match goal with
             | |- context [String.eqb ?s ""] => destruct (String.eqb s "")
             | |- context [len_map ?v =? 0] => destruct (len_map v =? 0)
             | |- context [is_nil ?s || (len ?s =? 0)] =>
                 destruct (is_nil s || (len s =? 0))
             | |- context [len_string ?s >? ?l] => destruct (len_string s >? l)
             | |- context [json_Marshal E ?a] =>
                 destruct (json_Marshal E a) as [? [?|]]
             end;
      reflexivity. }
  split; [ rewrite H; destruct (validates E i); lia | exact H ].
Qed.

(** Claim C9.  [CreateAlert] writes the encoded alert, followed by a newline,
    to standard output first, whatever the encoder reported: when encoding
    failed this is its only effect and the encoding error is returned; when
    it succeeded the one call to the dispatcher follows the write. *)
Theorem CreateAlert_prints_before_check (E : Env) (alert : models_Alert E) :
  let body := fst (json_Marshal E alert) in
  let c := call_request http.MethodPost routes.ShodanAlert None
             (Some (bytes_NewReader body))
             (Some {[ "Content-Type" := ["application/json"] ]}) ByReference in
  let f := CreateAlert E alert in
  match snd (json_Marshal E alert) with
  | Some e =>
      log f = [Stdout (body ++ String "010"%char "")] /\ err f = Some e
  | None =>
      log f = [Stdout (body ++ String "010"%char ""); Dispatch c]
      /\ err f = failure (transport E [Stdout (body ++ String "010"%char "")]
                            c models_AlertDetails)
  end.
Proof.
  unfold CreateAlert.
  destruct (json_Marshal E alert) as [body [e|]]; cbn [fst snd];
    split; reflexivity.
Qed.

Lemma parse_decimal_Sprint (n : N) : parse_decimal (fmt_Sprint n) = Some n.
Proof.
  unfold parse_decimal, fmt_Sprint.
  rewrite NilZero.usu.
  - f_equal. apply DecimalN.Unsigned.of_to.
  - destruct n as [|p]; [ discriminate | apply DecimalPos.Unsigned.to_uint_nonnil ].
Qed.

(** Claim C10.  [ListScans] always makes its one call with a [page] query
    parameter: ["1"] when [page] is 0, the decimal numeral of [page]
    otherwise.  Read back as a number the parameter is 1 for page 0 and
    [page] for any other page. *)
Theorem ListScans_page_parameter (E : Env) (page : N) :
  let value := if (page =? 0)%N then "1" else fmt_Sprint page in
  let c := call_get routes.ShodanScans (Some {[ "page" := [value] ]})
             ByReference in
  log (ListScans E page) = [Dispatch c]
  /\ (params_of c ≫= (fun m => m !! "page")) = Some [value]
  /\ parse_decimal value = Some (if (page =? 0)%N then 1%N else page).
Proof.
  unfold ListScans.
  destruct page as [|p]; cbn [N.ltb N.eqb N.compare].
  - repeat split; reflexivity.
  - assert (Hlt : (N.pos p <? 1)%N = false) by (apply N.ltb_ge; lia).
    rewrite Hlt. split; [ reflexivity | ].
    split; [ cbn [params_of mbind option_bind]; apply lookup_singleton_eq | ].
    apply parse_decimal_Sprint.
Qed.

(** Claim C4, as amended.  The route table declares three base URLs, the
    main API, the exploits API and the stream API, all different; every call
    a method makes goes to the main API, or to the exploits API for
    [ExploitSearch] and [ExploitCount], and none goes to the stream API. *)
Theorem dispatch_origins (E : Env) (i : Invocation E) :
  routes.base_urls = [routes.ApiRoot; routes.ApiExploits; routes.ApiStream]
  /\ NoDup routes.base_urls
  /\ Forall (fun c =>
       origin_of c = (if exploits_method i then routes.ApiExploits
                      else routes.ApiRoot)
       /\ origin_of c <> routes.ApiStream)
       (dispatches (trace E i)).
Proof.
  split; [ reflexivity | ].
  split.
  { apply (bool_decide_unpack _). vm_compute. exact I. }
  destruct i; cbn [trace exploits_method];
    unfold Search, SearchTokens, SubmitScan, GetScan, ScanInternet,
      QuerySearch, DatasetFiles, AddOrgMember, DeleteOrgMember, DnsResolve,
      DnsReverse, DnsDomain, Honeyscore, CreateAlert, AlertInfo, DeleteAlert,
      CreateAlertTrigger, DeleteAlertTrigger, CreateTriggerIgnore,
      DeleteTriggerIgnore, ExploitSearch, ExploitCount;
    repeat match goal with
           | |- context [String.eqb ?s ""] => destruct (String.eqb s "")
           | |- context [len_map ?v =? 0] => destruct (len_map v =? 0)
           | |- context [is_nil ?s || (len ?s =? 0)] =>
               destruct (is_nil s || (len s =? 0))
           | |- context [len_string ?s >? ?l] => destruct (len_string s >? l)
           | |- context [json_Marshal E ?a] =>
               destruct (json_Marshal E a) as [? [?|]]
           end;
    repeat constructor; discriminate.
Qed.

(** The claim C4 as written fails on the route table: it declares a third
    base URL, [ApiStream], which is neither the main nor the exploits base. *)
Lemma route_table_has_third_base_url :
  In routes.ApiStream routes.base_urls
  /\ routes.ApiStream <> routes.ApiRoot
  /\ routes.ApiStream <> routes.ApiExploits
  /\ ~ (forall u, In u routes.base_urls
          <-> u = routes.ApiRoot \/ u = routes.ApiExploits).
Proof.
  split; [ cbn; auto | ].
  split; [ discriminate | ].
  split; [ discriminate | ].
  intros H. destruct (proj1 (H routes.ApiStream)) as [H' | H'];
    [ cbn; auto | discriminate H' | discriminate H' ].
Qed.

(** ** The theorems at work on the transport double *)

(** The scenario of the spec's test list: 200 hostnames, rejected locally. *)
Lemma DnsResolve_big_request_witness :
  err (DnsResolve (double (Some "{}") None None) many_hostnames)
    = Some errBigRequest
  /\ log (DnsResolve (double (Some "{}") None None) many_hostnames) = [].
Proof.
  assert (Hne : 0 < len many_hostnames) by reflexivity.
  apply (proj1 (DnsResolve_big_request (double (Some "{}") None None)
                  many_hostnames Hne)).
  vm_compute. reflexivity.
Defined.

Lemma DnsReverse_big_request_witness :
  log (DnsReverse (double (Some "{}") None None) (mk_slice ["1.1.1.1"; "8.8.8.8"]))
  = [Dispatch (call_get routes.DnsReverse
                 (Some {[ "ips" := ["1.1.1.1,8.8.8.8"] ]}) ByReference)].
Proof.
  assert (Hne : 0 < len (mk_slice ["1.1.1.1"; "8.8.8.8"])) by reflexivity.
  apply (proj1 (proj2 (DnsReverse_big_request (double (Some "{}") None None)
                         (mk_slice ["1.1.1.1"; "8.8.8.8"]) Hne))).
  vm_compute. discriminate.
Defined.

Lemma SubmitScan_no_ips_witness :
  err (SubmitScan (double (Some "{}") None None) (mk_slice []) true)
    = Some errEmptyParams
  /\ log (SubmitScan (double (Some "{}") None None) (mk_slice []) true) = [].
Proof.
  assert (H : @mk_slice string [] = nil_slice \/ @mk_slice string [] = mk_slice [])
    by (right; reflexivity).
  pose proof (SubmitScan_no_ips (double (Some "{}") None None) (mk_slice []) true H)
    as (He & Hl & _).
  split; assumption.
Defined.

Lemma empty_parameters_rejected_witness :
  err (Search (double (Some "{}") None None) (Some ∅)) = Some errEmptyParams
  /\ err (ExploitCount (double (Some "{}") None None) None) = Some errEmptyParams.
Proof.
  pose proof (empty_parameters_rejected (double (Some "{}") None None)) as [Hs He].
  split.
  - apply (Hs (Some ∅)). right. reflexivity.
  - apply (He None). left. reflexivity.
Defined.

Lemma trigger_ignore_first_error_witness :
  err (CreateTriggerIgnore (double (Some "{}") None None) "alert-1" "" "")
    = Some errEmptyTriggerName
  /\ log (DeleteTriggerIgnore (double (Some "{}") None None) "alert-1" "" "") = [].
Proof.
  assert (H : (1 < length (empty_ones (ignore_checks "alert-1" "" "")))%nat)
    by (simpl; lia).
  pose proof (trigger_ignore_first_error (double (Some "{}") None None)
                "alert-1" "" "" H) as (_ & Hc & _ & _ & Hd).
  split; [ exact Hc | exact Hd ].
Defined.

(** The two ceilings tell on one list: 3419 joined bytes pass [DnsResolve]
    and are refused by [DnsReverse]. *)
Example ceilings_differ_on_one_list :
  dispatches (log (DnsResolve (double (Some "{}") None None) between_ceilings))
  = [call_get routes.DnsResolve
       (Some {[ "hostnames" := [strings_Join between_ceilings ","] ]}) ByReference]
  /\ err (DnsReverse (double (Some "{}") None None) between_ceilings)
     = Some errBigRequest
  /\ log (DnsReverse (double (Some "{}") None None) between_ceilings) = [].
Proof. repeat split; vm_compute; reflexivity. Qed.

(** The reply of the double reaches the caller of [SubmitScan] and not the
    caller of [ScanInternet]. *)
Example scan_results_on_double :
  result (SubmitScan (double (Some "{id: 7}") None None) (mk_slice ["1.2.3.4"]) false)
  = "{id: 7}"
  /\ result (ScanInternet (double (Some "{id: 7}") None None) 443 "https") = "".
Proof. split; reflexivity. Qed.

(** An alert that fails to encode is still printed, and nothing is sent. *)
Example CreateAlert_encoding_failure :
  log (CreateAlert (double None None (Some (errors_New "unsupported value")))
         "alert")
  = [Stdout (String "010"%char "")].
Proof. reflexivity. Qed.

Example ListScans_page_zero :
  dispatches (log (ListScans (double (Some "{}") None None) 0))
  = [call_get routes.ShodanScans (Some {[ "page" := ["1"] ]}) ByReference]
  /\ dispatches (log (ListScans (double (Some "{}") None None) 12))
     = [call_get routes.ShodanScans (Some {[ "page" := ["12"] ]}) ByReference].
Proof. split; reflexivity. Qed.

(** ** Properties of all methods at once *)

Ltac unfold_methods :=
  unfold nonempty, Host, Count, Search, SearchTokens, Ports, Protocols,
    Services, SubmitScan, ListScans, GetScan, ScanInternet, QueryList,
    QuerySearch, QueryTags, Datasets, DatasetFiles, Org, AddOrgMember,
    DeleteOrgMember, AccountProfile, DnsResolve, DnsReverse, DnsDomain,
    HttpHeaders, MyIP, ApiInfo, Honeyscore, CreateAlert, AlertInfo,
    DeleteAlert, ListAlerts, ListTriggers, CreateAlertTrigger,
    DeleteAlertTrigger, CreateTriggerIgnore, DeleteTriggerIgnore,
    ExploitSearch, ExploitCount in *.

Ltac split_guards E :=
  repeat match goal with
         | |- context [String.eqb ?s ""] => destruct (String.eqb s "")
         | |- context [len_map ?v =? 0] => destruct (len_map v =? 0)
         | |- context [is_nil ?s || (len ?s =? 0)] =>
             destruct (is_nil s || (len s =? 0))
         | |- context [len_string ?s >? ?l] => destruct (len_string s >? l)
         | |- context [json_Marshal E ?a] =>
             destruct (json_Marshal E a) as [? [?|]]
         end.

Lemma trace_frame_of E (i : Invocation E) :
  trace E i = log (projT2 (frame_of i)).
Proof. destruct i; reflexivity. Qed.

(** No method but [CreateAlert] writes to standard output, and [CreateAlert]
    writes one line. *)
Theorem only_CreateAlert_prints (E : Env) (i : Invocation E) :
  printed (trace E i)
  = match i with
    | inv_CreateAlert _ alert =>
        [fst (json_Marshal E alert) ++ String "010"%char ""]
    | _ => []
    end.
Proof.
  destruct i; cbn [trace]; unfold_methods; split_guards E; reflexivity.
Qed.

(** Every method hands the dispatcher the address of its result, except
    [ScanInternet], which hands it a copy. *)
Theorem only_ScanInternet_by_value (E : Env) (i : Invocation E) :
  Forall (fun c => dest_of c = match i with
                               | inv_ScanInternet _ _ _ => ByValue
                               | _ => ByReference
                               end)
         (dispatches (trace E i)).
Proof.
  destruct i; cbn [trace]; unfold_methods; split_guards E;
    repeat constructor.
Qed.

(** A request body is sent by [SubmitScan], [ScanInternet] and [CreateAlert]
    only.  Their call is a POST with a nil query and a header that holds the
    content type and nothing else; every other call has neither body nor
    header. *)
Theorem body_and_header_go_together (E : Env) (i : Invocation E) :
  Forall (fun c =>
      if carries_body i then
        verb_of c = Some http.MethodPost
        /\ params_of c = None
        /\ is_Some (body_sent c)
        /\ exists content_type,
             header_sent c = Some {[ "Content-Type" := [content_type] ]}
      else body_sent c = None /\ header_sent c = None)
    (dispatches (trace E i)).
Proof.
  destruct i; cbn [trace carries_body]; unfold_methods; split_guards E;
    repeat constructor; cbn [body_sent header_sent kind_of]; eauto.
Qed.

(** A method whose local check fails returns the zero value of its result
    type and a non-nil error, and makes no call to the dispatcher. *)
Theorem local_failure_returns_zero (E : Env) (i : Invocation E) :
  validates E i = false ->
  let f := projT2 (frame_of i) in
  result f = zero E (projT1 (frame_of i))
  /\ is_Some (err f)
  /\ dispatches (log f) = [].
Proof.
  destruct i; cbn [validates frame_of projT1 projT2]; unfold_methods;
    split_guards E; cbn [negb andb snd]; intros Hv; try discriminate Hv;
    repeat split; eauto.
Qed.

(** Against a dispatcher that answers every call alike, with decoded value
    [d] and error [x], a method whose local checks pass returns [x] as its
    error, neither wrapped nor dropped, and the decoded value as its result
    (the zero value when nothing was decoded), except [ScanInternet], whose
    result stays zero. *)
Theorem dispatcher_answer_is_returned (E : Env) (i : Invocation E)
    (d : forall t, option (model E t)) (x : option error) :
  (forall h c t, transport E h c t = mkOutcome (d t) x) ->
  validates E i = true ->
  let f := projT2 (frame_of i) in
  let t := projT1 (frame_of i) in
  err f = x
  /\ result f = match i, d t with
                | inv_ScanInternet _ _ _, _ => zero E t
                | _, Some v => v
                | _, None => zero E t
                end.
Proof.
  intros Hd.
  destruct i; cbn [validates frame_of projT1 projT2]; unfold_methods;
    split_guards E; cbn [negb andb snd]; intros Hv; try discriminate Hv;
    run_body; rewrite ?Hd; cbn [failure decoded store_through];
    split; try reflexivity;
    match goal with |- context [d ?t] => destruct (d t) end; reflexivity.
Qed.

(** ** The size of a bulk request *)

Lemma length_append (a b : string) :
  String.length (a ++ b) = (String.length a + String.length b)%nat.
Proof.
  induction a as [|c a IH]; [ reflexivity | ].
  change (String c a ++ b) with (String c (a ++ b)).
  cbn [String.length]. rewrite IH. reflexivity.
Qed.

Lemma length_join_loop (sep : string) (rest : list string) (b : string) :
  String.length (fold_left (fun b s => b ++ sep ++ s) rest b)
  = (String.length b + total_length rest + length rest * String.length sep)%nat.
Proof.
  revert b. induction rest as [|s rest IH]; intros b; cbn [fold_left].
  - cbn. lia.
  - rewrite IH, !length_append.
    change (total_length (s :: rest))
      with (String.length s + total_length rest)%nat.
    cbn [length]. lia.
Qed.

(** The joined string is as long as its elements together, plus one
    separator between neighbours. *)
Lemma length_strings_Join (elems : slice string) (sep : string) :
  String.length (strings_Join elems sep)
  = (total_length (elements elems)
     + (length (elements elems) - 1) * String.length sep)%nat.
Proof.
  unfold strings_Join. destruct (elements elems) as [|e [|e' rest]].
  - reflexivity.
  - cbn. lia.
  - rewrite length_join_loop.
    change (total_length (e :: e' :: rest))
      with (String.length e + total_length (e' :: rest))%nat.
    cbn [length]. lia.
Qed.

Lemma total_length_nonempty (l : list string) :
  Forall (fun s => s <> "") l -> (length l <= total_length l)%nat.
Proof.
  induction 1 as [|s l Hs _ IH].
  - cbn. lia.
  - change (total_length (s :: l)) with (String.length s + total_length l)%nat.
    destruct s; [ congruence | ]. cbn [String.length length]. lia.
Qed.

Lemma joined_at_least (names : slice string) :
  Forall (fun s => s <> "") (elements names) ->
  2 * len names - 1 <= len_string (strings_Join names ",").
Proof.
  intros Hne. unfold len, len_string. rewrite length_strings_Join.
  pose proof (total_length_nonempty _ Hne). cbn [String.length]. lia.
Qed.

(** [DnsResolve] refuses every list of more than 1788 non-empty hostnames,
    whatever the hostnames are, and [DnsReverse] every list of more than 1685
    non-empty addresses: such a list joins to more than 3575, respectively
    3369, bytes. *)
Theorem bulk_element_count_bound (E : Env) (names : slice string) :
  Forall (fun s => s <> "") (elements names) ->
  (1788 < len names ->
   err (DnsResolve E names) = Some errBigRequest /\ log (DnsResolve E names) = [])
  /\ (1685 < len names ->
      err (DnsReverse E names) = Some errBigRequest
      /\ log (DnsReverse E names) = []).
Proof.
  intros Hne. pose proof (joined_at_least names Hne) as Hlen.
  split; intros Hmany.
  - unfold DnsResolve. rewrite bulk_guard by lia.
    unfold hostnamesLenLimit.
    destruct (Z.gtb_spec (len_string (strings_Join names ",")) 3575); [ | lia ].
    rewrite early_return. split; reflexivity.
  - unfold DnsReverse. rewrite bulk_guard by lia.
    unfold ipsLenLimit.
    destruct (Z.gtb_spec (len_string (strings_Join names ",")) 3369); [ | lia ].
    rewrite early_return. split; reflexivity.
Qed.

(** The bound on the number of hostnames is reached: 1788 one-byte hostnames
    are sent. *)
Example just_enough_hostnames_sent :
  len just_enough_hostnames = 1788
  /\ length (dispatches (log (DnsResolve (double None None None)
                                just_enough_hostnames))) = 1%nat.
Proof. split; vm_compute; reflexivity. Qed.

(** [SubmitScan] has no ceiling on the size of its list: every non-empty
    list, however long once joined, is sent in one POST to the scan route.
    The form holds the joined list under [ips], and [force=true] exactly when
    [force] is set, and nothing else. *)
Theorem SubmitScan_form (E : Env) (ips : slice string) (force : bool) :
  0 < len ips ->
  exists form,
    log (SubmitScan E ips force)
    = [Dispatch (call_request "POST" "/shodan/scan" None
                   (Some (strings_NewReader (Values_Encode E form)))
                   (Some {[ "Content-Type" := ["application/x-www-form-urlencoded"] ]})
                   ByReference)]
    /\ form !! "ips" = Some [strings_Join ips ","]
    /\ form !! "force" = (if force then Some ["true"] else None)
    /\ forall k, k <> "ips" -> k <> "force" -> form !! k = None.
Proof.
  intros Hne. unfold SubmitScan. rewrite (bulk_guard _ Hne).
  unfold request. rewrite one_call. eexists. split; [ reflexivity | ].
  unfold map_Set, make_map.
  destruct force; repeat split; intros; simplify_map_eq; reflexivity.
Qed.

(** ** Routes with path parameters *)

Lemma append_empty_r (s : string) : s ++ "" = s.
Proof.
  induction s as [|c s IH]; [ reflexivity | ].
  change (String c s ++ "") with (String c (s ++ "")). now rewrite IH.
Qed.

Lemma not_empty (s : string) : s <> "" -> String.eqb s "" = false.
Proof. intros H. now apply String.eqb_neq. Qed.

(** A non-empty identifier is spliced into the path as it is, without any
    escaping, by the six methods that take one. *)
Theorem path_identifier_spliced (E : Env) (id : string) :
  id <> "" ->
  route_of <$> dispatches (log (GetScan E id)) = ["/shodan/scan/" ++ id]
  /\ route_of <$> dispatches (log (DatasetFiles E id)) = ["/shodan/data/" ++ id]
  /\ route_of <$> dispatches (log (Honeyscore E id)) = ["/labs/honeyscore/" ++ id]
  /\ route_of <$> dispatches (log (AlertInfo E id))
     = ["/shodan/alert/" ++ id ++ "/info"]
  /\ route_of <$> dispatches (log (DeleteAlert E id)) = ["/shodan/alert/" ++ id]
  /\ route_of <$> dispatches (log (DeleteOrgMember E id)) = ["/org/member/" ++ id].
Proof.
  intros Hid. unfold GetScan, DatasetFiles, Honeyscore, AlertInfo, DeleteAlert,
    DeleteOrgMember.
  rewrite (not_empty _ Hid).
  repeat split; cbn; rewrite ?append_empty_r; reflexivity.
Qed.

(** Enabling and disabling a trigger, and ignoring and restoring a service,
    address the same path; the first of each pair is a PUT and the second a
    DELETE, and either is sent only when all its arguments are non-empty. *)
Theorem trigger_pairs_share_route (E : Env) (alertID triggerName service : string) :
  let action := "/shodan/alert/" ++ alertID ++ "/trigger/" ++ triggerName in
  let ignore := action ++ "/ignore/" ++ service in
  let both := nonempty alertID && nonempty triggerName in
  let all := both && nonempty service in
  dispatches (log (CreateAlertTrigger E alertID triggerName))
  = (if both then [call_request "PUT" action None None None ByReference] else [])
  /\ dispatches (log (DeleteAlertTrigger E alertID triggerName))
     = (if both then [call_request "DELETE" action None None None ByReference]
        else [])
  /\ dispatches (log (CreateTriggerIgnore E alertID triggerName service))
     = (if all then [call_request "PUT" ignore None None None ByReference]
        else [])
  /\ dispatches (log (DeleteTriggerIgnore E alertID triggerName service))
     = (if all then [call_request "DELETE" ignore None None None ByReference]
        else []).
Proof.
  assert (Hassoc : forall a b c : string, (a ++ b) ++ c = a ++ b ++ c).
  { intros a b c. induction a as [|x a IH]; [ reflexivity | ].
    change ((String x a ++ b) ++ c) with (String x ((a ++ b) ++ c)).
    rewrite IH. reflexivity. }
  unfold CreateAlertTrigger, DeleteAlertTrigger, CreateTriggerIgnore,
    DeleteTriggerIgnore, nonempty.
  destruct (String.eqb alertID ""), (String.eqb triggerName ""),
    (String.eqb service ""); cbn -[String.append];
    rewrite ?append_empty_r;
    repeat split; try reflexivity;
    repeat f_equal;
    change ("/shodan/alert/" ++ alertID ++ "/trigger/" ++ triggerName)
      with ("/shodan/alert/" ++ (alertID ++ "/trigger/" ++ triggerName));
    rewrite !Hassoc; reflexivity.
Qed.

(** Adding and removing an organisation member address the same path, with
    PUT and DELETE.  Only adding carries a query, which holds [notify=true]
    when [notify] is set and is empty, not nil, otherwise. *)
Theorem org_member_pair (E : Env) (username : string) (notify : bool) :
  username <> "" ->
  let member := "/org/member/" ++ username in
  dispatches (log (AddOrgMember E username notify))
  = [call_request "PUT" member
       (Some (if notify then {[ "notify" := ["true"] ]} else ∅))
       None None ByReference]
  /\ dispatches (log (DeleteOrgMember E username))
     = [call_request "DELETE" member None None None ByReference].
Proof.
  intros Hu. unfold AddOrgMember, DeleteOrgMember.
  rewrite (not_empty _ Hu).
  split; cbn -[String.append]; rewrite append_empty_r;
    [ destruct notify | ]; reflexivity.
Qed.

(** ** Methods without a local check *)

(** [Host] checks nothing: it always makes its one call, to the host path
    followed by whatever [params.IP] holds, the empty string included, with
    the encoded parameters as they are. *)
Theorem Host_checks_nothing (E : Env) (params : search_HostParams E) :
  dispatches (log (Host E params))
  = [call_get ("/shodan/host/" ++ HostParams_IP E params)
       (HostParams_ToURLValues E params) ByReference].
Proof.
  unfold Host. cbn -[String.append]. rewrite append_empty_r. reflexivity.
Qed.

(** [Count] sends the encoded parameters even when they are empty; [Search]
    and [SearchTokens] send the same parameters to their own routes only when
    they are not. *)
Theorem Count_sends_what_Search_refuses (E : Env) (params : search_Params E) :
  let values := Params_ToURLValues E params in
  dispatches (log (Count E params))
  = [call_get "/shodan/host/count" values ByReference]
  /\ dispatches (log (Search E params))
     = (if len_map values =? 0 then []
        else [call_get "/shodan/host/search" values ByReference])
  /\ dispatches (log (SearchTokens E params))
     = (if len_map values =? 0 then []
        else [call_get "/shodan/host/search/tokens" values ByReference]).
Proof.
  unfold Count, Search, SearchTokens.
  destruct (len_map (Params_ToURLValues E params) =? 0);
    repeat split; reflexivity.
Qed.

(** ** Optional query parameters *)

(** [QueryList] and [QueryTags] leave out every parameter whose argument is
    zero or empty: page 0 sends no [page] (where [ListScans] sends page 1),
    and with no argument set the query is empty but not nil.  A parameter
    that is sent holds its argument, the number as a decimal numeral. *)
Theorem optional_query_parameters (E : Env) (page size : N) (sort order : string) :
  exists list_query tags_query : gmap string (list string),
    dispatches (log (QueryList E page sort order))
    = [call_get "/shodan/query" (Some list_query) ByReference]
    /\ dispatches (log (QueryTags E size))
       = [call_get "/shodan/query/tags" (Some tags_query) ByReference]
    /\ list_query !! "page"
       = (if (page =? 0)%N then None else Some [fmt_Sprint page])
    /\ list_query !! "sort" = (if String.eqb sort "" then None else Some [sort])
    /\ list_query !! "order" = (if String.eqb order "" then None else Some [order])
    /\ (forall k, k <> "page" -> k <> "sort" -> k <> "order" ->
        list_query !! k = None)
    /\ tags_query = (if (size =? 0)%N then ∅ else {[ "size" := [fmt_Sprint size] ]}).
Proof.
  unfold QueryList, QueryTags, map_Set, make_map.
  do 2 eexists. split; [ reflexivity | ]. split; [ reflexivity | ].
  assert (Hp : (0 <? page)%N = negb (page =? 0)%N) by (destruct page; reflexivity).
  assert (Hs : (0 <? size)%N = negb (size =? 0)%N) by (destruct size; reflexivity).
  rewrite Hp, Hs.
  destruct (page =? 0)%N, (String.eqb sort ""), (String.eqb order ""),
    (size =? 0)%N; cbn [negb];
    repeat split; intros; simplify_map_eq; reflexivity.
Qed.

(** [QuerySearch] refuses an empty query without calling the dispatcher;
    otherwise it sends the query under [query], and [page] only when it is
    not 0. *)
Theorem QuerySearch_query (E : Env) (query : string) (page : N) :
  (query = "" ->
   err (QuerySearch E query page) = Some (errors_New "empty search query")
   /\ log (QuerySearch E query page) = [])
  /\ (query <> "" ->
      exists q : gmap string (list string),
        dispatches (log (QuerySearch E query page))
        = [call_get "/shodan/query/search" (Some q) ByReference]
        /\ q !! "query" = Some [query]
        /\ q !! "page" = (if (page =? 0)%N then None else Some [fmt_Sprint page])
        /\ forall k, k <> "query" -> k <> "page" -> q !! k = None).
Proof.
  unfold QuerySearch, map_Set, make_map. split.
  - intros ->. split; reflexivity.
  - intros Hq. rewrite (not_empty _ Hq).
    eexists. split; [ reflexivity | ].
    destruct page; cbn [N.ltb N.eqb N.compare];
      repeat split; intros; simplify_map_eq; reflexivity.
Qed.

(** ** Order of the checks on alert methods *)

(** In the six methods that take an alert id, an empty id is reported as
    [errEmptyAlertID] whatever the other arguments are, and nothing is
    sent. *)
Theorem empty_alert_id_reported_first (E : Env) (triggerName service : string) :
  (err (AlertInfo E "") = Some errEmptyAlertID /\ log (AlertInfo E "") = [])
  /\ (err (DeleteAlert E "") = Some errEmptyAlertID /\ log (DeleteAlert E "") = [])
  /\ (err (CreateAlertTrigger E "" triggerName) = Some errEmptyAlertID
      /\ log (CreateAlertTrigger E "" triggerName) = [])
  /\ (err (DeleteAlertTrigger E "" triggerName) = Some errEmptyAlertID
      /\ log (DeleteAlertTrigger E "" triggerName) = [])
  /\ (err (CreateTriggerIgnore E "" triggerName service) = Some errEmptyAlertID
      /\ log (CreateTriggerIgnore E "" triggerName service) = [])
  /\ (err (DeleteTriggerIgnore E "" triggerName service) = Some errEmptyAlertID
      /\ log (DeleteTriggerIgnore E "" triggerName service) = []).
Proof. repeat split; reflexivity. Qed.

(** ** The form of [ScanInternet] *)

(** With a non-empty protocol, [ScanInternet] sends one POST whose form holds
    the port as a decimal numeral that reads back as the port, port 0
    included, and the protocol as given, and nothing else. *)
Theorem ScanInternet_form (E : Env) (port : N) (protocol : string) :
  protocol <> "" ->
  exists form,
    log (ScanInternet E port protocol)
    = [Dispatch (call_request "POST" "/shodan/scan/internet" None
                   (Some (strings_NewReader (Values_Encode E form)))
                   (Some {[ "Content-Type" := ["application/x-www-form-urlencoded"] ]})
                   ByValue)]
    /\ form !! "port" = Some [fmt_Sprint port]
    /\ parse_decimal (fmt_Sprint port) = Some port
    /\ form !! "protocol" = Some [protocol]
    /\ forall k, k <> "port" -> k <> "protocol" -> form !! k = None.
Proof.
  intros Hp. unfold ScanInternet. rewrite (not_empty _ Hp).
  eexists. split; [ reflexivity | ].
  unfold map_Set, make_map.
  split; [ now simplify_map_eq | ].
  split; [ apply parse_decimal_Sprint | ].
  split; [ now simplify_map_eq | ].
  intros k H1 H2. now simplify_map_eq.
Qed.

(** ** Shape of the routes *)

(** The eleven methods without arguments each call [get] with a nil query on
    a path of their own. *)
Theorem parameterless_methods_routes (E : Env) :
  let calls :=
    (dispatches (log (Ports E)) ++ dispatches (log (Protocols E))
    ++ dispatches (log (Services E)) ++ dispatches (log (Datasets E))
    ++ dispatches (log (Org E)) ++ dispatches (log (AccountProfile E))
    ++ dispatches (log (HttpHeaders E)) ++ dispatches (log (MyIP E))
    ++ dispatches (log (ApiInfo E)) ++ dispatches (log (ListAlerts E))
    ++ dispatches (log (ListTriggers E)))%list in
  length calls = 11%nat
  /\ Forall (fun c => exists r, c = call_get r None ByReference) calls
  /\ NoDup (route_of <$> calls).
Proof.
  cbn. split; [ reflexivity | ]. split.
  - repeat constructor; eexists; reflexivity.
  - apply (bool_decide_unpack _). vm_compute. exact I.
Qed.

Lemma Sprintf_keeps_slash (rest : string) (args : list string) :
  fmt_Sprintf (String "/" rest) args = String "/" (fmt_Sprintf rest args).
Proof. reflexivity. Qed.

(** Every path handed to the dispatcher begins with a slash, provided the
    domain template does. *)
Theorem routes_begin_with_slash (E : Env) (i : Invocation E) :
  (exists rest, routes_DnsDomain E = String "/" rest) ->
  Forall (fun c => exists rest, route_of c = String "/" rest)
         (dispatches (trace E i)).
Proof.
  intros [rest Hrest].
  destruct i; cbn [trace]; unfold_methods; split_guards E;
    repeat constructor; cbn [route_of];
    rewrite ?Hrest, ?Sprintf_keeps_slash; eexists; reflexivity.
Qed.

(** ** The further theorems at work on the transport double *)

Lemma local_failure_returns_zero_witness :
  result (GetScan (double (Some "{}") None None) "") = ""
  /\ is_Some (err (GetScan (double (Some "{}") None None) "")).
Proof.
  assert (Hv : validates (double (Some "{}") None None)
                 (inv_GetScan (double (Some "{}") None None) "") = false)
    by reflexivity.
  pose proof (local_failure_returns_zero _ _ Hv) as (Hr & He & _).
  split; [ exact Hr | exact He ].
Defined.

Lemma dispatcher_answer_is_returned_witness :
  err (MyIP (double (Some "1.2.3.4") (Some (errors_New "status 401")) None))
    = Some (errors_New "status 401")
  /\ result (MyIP (double (Some "1.2.3.4") (Some (errors_New "status 401")) None))
     = "1.2.3.4".
Proof.
  pose (E := double (Some "1.2.3.4") (Some (errors_New "status 401")) None).
  assert (Hd : forall h c t,
             transport E h c t
             = mkOutcome ((fun _ => Some "1.2.3.4") t)
                 (Some (errors_New "status 401"))) by reflexivity.
  assert (Hv : validates E (inv_MyIP E) = true) by reflexivity.
  exact (dispatcher_answer_is_returned E (inv_MyIP E) _ _ Hd Hv).
Defined.

Lemma bulk_element_count_bound_witness :
  err (DnsResolve (double None None None) too_many_hostnames) = Some errBigRequest
  /\ log (DnsResolve (double None None None) too_many_hostnames) = [].
Proof.
  assert (Hne : Forall (fun s => s <> "") (elements too_many_hostnames)).
  { apply List.Forall_forall. intros x Hx.
    apply List.repeat_spec in Hx. subst x. discriminate. }
  apply (proj1 (bulk_element_count_bound (double None None None)
                  too_many_hostnames Hne)).
  vm_compute. reflexivity.
Defined.

Lemma SubmitScan_form_witness :
  exists form : gmap string (list string),
    form !! "ips" = Some ["1.2.3.4,5.6.7.8"] /\ form !! "force" = Some ["true"].
Proof.
  assert (Hne : 0 < len (mk_slice ["1.2.3.4"; "5.6.7.8"])) by reflexivity.
  destruct (SubmitScan_form (double None None None)
              (mk_slice ["1.2.3.4"; "5.6.7.8"]) true Hne)
    as (form & _ & Hips & Hforce & _).
  exists form. split; [ exact Hips | exact Hforce ].
Defined.

Lemma path_identifier_spliced_witness :
  route_of <$> dispatches (log (AlertInfo (double None None None) "A1/../B2"))
  = ["/shodan/alert/A1/../B2/info"].
Proof.
  assert (Hid : "A1/../B2" <> "") by discriminate.
  exact (proj1 (proj2 (proj2 (proj2
           (path_identifier_spliced (double None None None) "A1/../B2" Hid))))).
Defined.

Lemma org_member_pair_witness :
  dispatches (log (DeleteOrgMember (double None None None) "alice"))
  = [call_request "DELETE" "/org/member/alice" None None None ByReference].
Proof.
  assert (Hu : "alice" <> "") by discriminate.
  exact (proj2 (org_member_pair (double None None None) "alice" true Hu)).
Defined.

Lemma QuerySearch_query_witness :
  log (QuerySearch (double None None None) "" 3) = []
  /\ exists q : gmap string (list string),
       q !! "query" = Some ["webcam"] /\ q !! "page" = Some ["3"].
Proof.
  split.
  - apply (proj1 (QuerySearch_query (double None None None) "" 3)). reflexivity.
  - assert (Hq : "webcam" <> "") by discriminate.
    destruct (proj2 (QuerySearch_query (double None None None) "webcam" 3) Hq)
      as (q & _ & Hquery & Hpage & _).
    exists q. split; [ exact Hquery | exact Hpage ].
Defined.

Lemma ScanInternet_form_witness :
  exists form : gmap string (list string),
    form !! "port" = Some ["443"] /\ form !! "protocol" = Some ["https"].
Proof.
  assert (Hp : "https" <> "") by discriminate.
  destruct (ScanInternet_form (double None None None) 443 "https" Hp)
    as (form & _ & Hport & _ & Hproto & _).
  exists form. split; [ exact Hport | exact Hproto ].
Defined.

Lemma routes_begin_with_slash_witness :
  Forall (fun c => exists rest, route_of c = String "/" rest)
    (dispatches (trace (double None None None)
                   (inv_DnsDomain (double None None None) "shodan.io"))).
Proof.
  apply routes_begin_with_slash. eexists. reflexivity.
Defined.
